(** * BuffiCast: the RANDOMIZE_SPEECH action ([agent/src/clAction.ts])

    A shallow embedding of the action [generatePodcastCL]: its [validate]
    and [handler] functions and the helper [generatePodcastContent].

    The handler is sequential orchestration code: it reads six values from
    [process.env], calls external services one after the other, reports
    progress through a callback and normalises every exception of the
    [try] block to one failure message.  The embedding keeps exactly that
    shape.  A computation is a pair of the events it performed, in order,
    and the way it completed (a value, or a thrown exception); [await] on
    a service call is the monadic bind.  The external services, and the
    platform function [JSON.stringify], are a record of functions giving
    the completion of each call; nothing is assumed about them.

    What the embedding takes for granted: [process.env] does not change
    during a run; the callback is a sink that records the notification
    and does not throw; [extractMessages] is a function of the text.  The
    parameters [_agent] and [_options], which neither function reads, are
    left out.  The module [Fallible] gives the handler again without the
    assumption on the callback, for the properties that depend on it. *)

From Stdlib Require Import String Ascii List Bool ZArith DecimalString.
Import ListNotations.
Open Scope list_scope.
Open Scope string_scope.

(** ** Data *)

(** [new Error(msg)], and whatever a service throws. *)
Inductive exn : Type :=
| Error (message : string).

(** [Memory]: only [content.text] is read. *)
Record Content : Type := { text : string }.
Record Memory : Type := { content : Content }.

(** [State]: the session-scoped object that [validate] writes to.  The
    field [daily_messages] is absent ([None]) until it is assigned; the
    other fields of the framework's [State] are kept as they are. *)
Module State.
Record t : Type := mk {
  daily_messages : option (list string);
  others : list (string * string)
}.
(** [_state.daily_messages = messages] *)
Definition set_daily_messages (messages : list string) (s : t) : t :=
  {| daily_messages := Some messages; others := others s |}.
End State.

(** [HandlerCallback]: the sink of user-facing notifications.  Calling it
    with [{ text }] is the event [Notify text]. *)
Inductive HandlerCallback : Type :=
| Sink.

(** [process.env]: a value is a string, or [undefined]. *)
Record ProcessEnv : Type := {
  EVM_PRIVATE_KEY : option string;
  CONTRACT_ADDRESS : option string;
  CONTRACT_ADDRESS_FLOW : option string;
  ANTHROPIC_API_KEY : option string;
  ELEVENLABS_XI_API_KEY : option string;
  PINATA_JWT : option string
}.

(** JavaScript's [!v] on a [string | undefined]: [undefined] and the empty
    string are falsy. *)
Definition falsy (v : option string) : bool :=
  match v with
  | None => true
  | Some s => String.eqb s EmptyString
  end.

(** The narrowing of [string | undefined] to [string] that TypeScript
    performs after the guard, and the non-null assertion [v!].  It is
    only applied to values that passed the guard. *)
Definition narrow (v : option string) : string :=
  match v with
  | Some s => s
  | None => EmptyString
  end.

(** [PodcastMetadata] ([./interfaces/Podcast]), as the object literal of
    the handler populates it. *)
Record PodcastMetadata : Type := {
  name : string;
  description : string;
  image : string;
  external_url : string
}.

(** The value [callStoryProtocol] resolves to. *)
Record MintResult : Type := {
  txHash : string;
  ipId : string
}.

(** A content block of the language model's response, the union
    [TextBlock | ToolUseBlock] of the client library: the handler only
    looks at [type] and, for a text block, at [text]. *)
Inductive ContentBlock : Type :=
| TextBlock (text : string)
| ToolUseBlock (id name input : string).

Definition block_type (block : ContentBlock) : string :=
  match block with
  | TextBlock _ => "text"
  | ToolUseBlock _ _ _ => "tool_use"
  end.

(** [(block as { type: 'text'; text: string }).text]: the cast is not
    checked, so on another block the property read gives [undefined]. *)
Definition block_text (block : ContentBlock) : option string :=
  match block with
  | TextBlock text => Some text
  | ToolUseBlock _ _ _ => None
  end.

(** [Array.prototype.join]: [undefined] elements are joined as the empty
    string. *)
Definition js_string (x : option string) : string :=
  match x with
  | Some s => s
  | None => EmptyString
  end.

Fixpoint join (sep : string) (l : list (option string)) : string :=
  match l with
  | [] => EmptyString
  | x :: rest =>
      match rest with
      | [] => js_string x
      | _ :: _ => js_string x ++ sep ++ join sep rest
      end
  end.

(** ['\n'] *)
Definition newline : string := String "010"%char EmptyString.

(** [String.prototype.includes], used to say that a notification embeds a
    value. *)
Fixpoint includes (s needle : string) : bool :=
  String.prefix needle s ||
  match s with
  | EmptyString => false
  | String _ s' => includes s' needle
  end.

Section Action.

(** [randomParams: any] and the handle [generateAudio] resolves to are
    opaque to the handler. *)
Context {RandomParameters AudioReference : Type}.

(** [PodcastPrompt] ([./interfaces/Podcast]). *)
Record PodcastPrompt : Type := {
  instruction : string;
  topic : string;
  daily_messages : list string;
  random_parameters : RandomParameters;
  duration : string;
  language : string
}.

(** *** Completions and events *)

Inductive completion (A : Type) : Type :=
| Return (a : A)
| Throw (e : exn).
Arguments Return {A} a.
Arguments Throw {A} e.

(** Every operation of the handler that can raise: the three service
    constructors, the service methods, the language-model client and
    [JSON.stringify], each with the arguments it is given. *)
Inductive operation : Type :=
| OpNewBlockchainService
    (privateKey contractAddress contractAddressFlow : string) (flag : bool)
| OpNewAudioService (xiApiKey : string)
| OpNewIPFSService (pinataJwt : string)
| OpRequestRandomParameters
| OpNewAnthropic (apiKey : string)
| OpStringifyPrompt (prompt : PodcastPrompt)
| OpMessagesCreate (model : string) (max_tokens : Z) (role content : string)
| OpGenerateAudio (content : string)
| OpUploadAudioFile (audioPath : AudioReference)
| OpStringifyParams (randomParams : RandomParameters)
| OpUploadMetadata (metadata : PodcastMetadata)
| OpUpdateTokenURI (uri : string)
| OpCallStoryProtocol (audioHash metadataHash : string).

Inductive event : Type :=
| Notify (text : string)                 (* _callback({ text }) *)
| LogError (label : string) (error : exn) (* elizaLogger.error(label, error) *)
| Step (op : operation).

(** The external collaborators: what each call completes with.
    [JSON_stringify_params] is [JSON.stringify(randomParams)] as the
    template literal of the description interpolates it. *)
Record Collaborators : Type := {
  new_BlockchainService : string -> string -> string -> bool -> completion unit;
  new_AudioService : string -> completion unit;
  new_IPFSService : string -> completion unit;
  requestRandomParameters : completion RandomParameters;
  new_Anthropic : string -> completion unit;
  JSON_stringify_prompt : PodcastPrompt -> completion string;
  messages_create : string -> Z -> string -> string -> completion (list ContentBlock);
  generateAudio : string -> completion AudioReference;
  uploadAudioFile : AudioReference -> completion string;
  JSON_stringify_params : RandomParameters -> completion string;
  uploadMetadata : PodcastMetadata -> completion string;
  updateTokenURI : string -> completion unit;
  callStoryProtocol : string -> string -> completion MintResult
}.

(** *** The monad of the handler *)

Definition M (A : Type) : Type := (list event * completion A)%type.

Definition ret {A} (a : A) : M A := ([], Return a).

Definition throw {A} (e : exn) : M A := ([], Throw e).

Definition bind {A B} (m : M A) (k : A -> M B) : M B :=
  match m with
  | (t, Return a) => let (t', r) := k a in ((t ++ t')%list, r)
  | (t, Throw e) => (t, Throw e)
  end.

(** [try { m } catch (error) { h error }] *)
Definition try_catch {A} (m : M A) (h : exn -> M A) : M A :=
  match m with
  | (t, Return a) => (t, Return a)
  | (t, Throw e) => let (t', r) := h e in ((t ++ t')%list, r)
  end.

Definition emit (ev : event) : M unit := ([ev], Return tt).

(** An operation is attempted, then completes as the collaborator says. *)
Definition step {A} (op : operation) (c : completion A) : M A :=
  ([Step op], c).

Definition events {A} (m : M A) : list event := fst m.
Definition result {A} (m : M A) : completion A := snd m.

End Action.

Arguments Return {A} a.
Arguments Throw {A} e.
Arguments PodcastPrompt : clear implicits.
Arguments operation : clear implicits.
Arguments event : clear implicits.
Arguments Collaborators : clear implicits.
Arguments M : clear implicits.

Declare Scope action_scope.
Delimit Scope action_scope with action.
Notation "'let!' x ':=' m 'in' k" := (bind m (fun x => k))
  (at level 10, x name, m at level 100, k at level 200) : action_scope.
Notation "m ';;' k" := (bind m (fun _ => k))
  (at level 100, k at level 200, right associativity) : action_scope.
Open Scope action_scope.

(** ** Notification texts *)

Definition msg_missing_env : string :=
  "⚠️ Missing environment variables. Please check the configuration.".
Definition msg_random : string :=
  "🎲 Requesting random parameters from Chainlink VRF ...".
Definition msg_content : string :=
  "✍️ Generating podcast content...".
Definition msg_speech : string :=
  "🎙️ Converting text to speech...".
Definition msg_ipfs : string :=
  "📤 Uploading to IPFS...".
Definition msg_token_uri : string :=
  "🔄 Updating NFT metadata for Tokenized Podcast ...".
Definition msg_minting : string :=
  "🔗 Minting NFT in Story ...".
Definition msg_secured (resp : MintResult) : string :=
  "✨ Podcast secured on story protocol 🎉 Hash: " ++ txHash resp
    ++ " - Ip Id : " ++ ipId resp.
Definition msg_success : string :=
  "✨ Podcast generated and minted successfully! Check OpenSea to view your NFT 🎉: https://testnets.opensea.io/collection/podcast-chapter-1".
Definition msg_failure : string :=
  "❌ An error occurred while generating the podcast.".

(** ** The action *)

Section Handler.

Context {RandomParameters AudioReference : Type}.

Local Abbreviation Collaborators := (Collaborators RandomParameters AudioReference).
Local Abbreviation M := (M RandomParameters AudioReference).
Local Abbreviation event := (event RandomParameters AudioReference).
Local Abbreviation operation := (operation RandomParameters AudioReference).

(** [extractMessages] of [./utils/utils]: the quoted fragments of a
    text, or a falsy sentinel when there is none. *)
Variable extractMessages : string -> option (list string).

(** [process.env], read-only during a run. *)
Variable env : ProcessEnv.

Variable w : Collaborators.

(** [_callback({ text })] *)
Definition callback (text : string) : M unit := emit (Notify text).

(** [elizaLogger.error(label, error)] *)
Definition elizaLogger_error (label : string) (error : exn) : M unit :=
  emit (LogError label error).

(** [validate]: resolves to a boolean; the second component is the
    session state after the call. *)
Definition validate (_memory : Memory) (_state : option State.t)
  : bool * option State.t :=
  let messages := extractMessages (text (content _memory)) in
  match messages with
  | None => (false, _state)
  | Some messages =>
      match _state with
      | Some s => (true, Some (State.set_daily_messages messages s))
      | None => (false, None)
      end
  end.

Definition generatePodcastContent
  (messages : list string) (randomParams : RandomParameters)
  (apiKey : string) : M string :=
  let! anthropic := step (OpNewAnthropic apiKey) (new_Anthropic w apiKey) in
  let prompt : PodcastPrompt RandomParameters := {|
    instruction := "Generate a podcast script based on the day's messages. Create natural speech without formatting.";
    topic := "Ethereum Denver 2025 daily podcast";
    daily_messages := messages;
    random_parameters := randomParams;
    duration := "20 Seconds";
    language := "English"
  |} in
  let! payload :=
    step (OpStringifyPrompt prompt) (JSON_stringify_prompt w prompt) in
  let! response :=
    step (OpMessagesCreate "claude-3-haiku-20240307" 1024 "user" payload)
         (messages_create w "claude-3-haiku-20240307" 1024 "user" payload) in
  ret (join newline
         (map block_text
            (filter (fun block => String.eqb (block_type block) "text")
               response))).

(** The body of the [try] block, after the guard narrowed the six
    values to strings. *)
Definition pipeline
  (messages : option (list string))
  (privateKey contractAddress contractAddressFlow xiApiKey pinataJwt : string)
  : M bool :=
  let! blockchainService :=
    step (OpNewBlockchainService privateKey contractAddress contractAddressFlow false)
         (new_BlockchainService w privateKey contractAddress contractAddressFlow false) in
  let! audioService :=
    step (OpNewAudioService xiApiKey) (new_AudioService w xiApiKey) in
  let! ipfsService :=
    step (OpNewIPFSService pinataJwt) (new_IPFSService w pinataJwt) in
  callback msg_random ;;
  let! randomParams :=
    step OpRequestRandomParameters (requestRandomParameters w) in
  callback msg_content ;;
  let! content :=
    generatePodcastContent
      (match messages with
       | Some messages => messages
       | None => ["Awesome messages!"]
       end)
      randomParams
      (narrow (ANTHROPIC_API_KEY env)) in
  callback msg_speech ;;
  let! audioPath := step (OpGenerateAudio content) (generateAudio w content) in
  callback msg_ipfs ;;
  let! audioHash :=
    step (OpUploadAudioFile audioPath) (uploadAudioFile w audioPath) in
  let! serialized :=
    step (OpStringifyParams randomParams) (JSON_stringify_params w randomParams) in
  let metadata : PodcastMetadata := {|
    name := "BuffiCast Podcast";
    description := "Podcast generated by BuffiCast with parameters: " ++ serialized;
    image := "https://ipfs.io/ipfs/bafkreifqzkq7tzppc22fa2f52sg2cruvomne2tp34yhdnx3ub2xw24b52m";
    external_url := "https://ipfs.io/ipfs/" ++ audioHash
  |} in
  let! metadataHash :=
    step (OpUploadMetadata metadata) (uploadMetadata w metadata) in
  callback msg_token_uri ;;
  step (OpUpdateTokenURI ("https://ipfs.io/ipfs/" ++ metadataHash))
       (updateTokenURI w ("https://ipfs.io/ipfs/" ++ metadataHash)) ;;
  callback msg_minting ;;
  let! resp :=
    step (OpCallStoryProtocol audioHash metadataHash)
         (callStoryProtocol w audioHash metadataHash) in
  callback (msg_secured resp) ;;
  callback msg_success ;;
  ret true.

(** The [catch] clause. *)
Definition on_error (error : exn) : M bool :=
  elizaLogger_error "Podcast Generation Error:" error ;;
  callback msg_failure ;;
  ret false.

(** [handler]: the completion is that of the returned promise. *)
Definition handler
  (_memory : Memory) (_state : option State.t)
  (_callback : option HandlerCallback) : M bool :=
  match _callback with
  | None => throw (Error "Callback is required")
  | Some _ =>
      let messages := extractMessages (text (content _memory)) in
      let privateKey := EVM_PRIVATE_KEY env in
      let contractAddress := CONTRACT_ADDRESS env in
      let contractAddressFlow := CONTRACT_ADDRESS_FLOW env in
      let apiKey := ANTHROPIC_API_KEY env in
      let xiApiKey := ELEVENLABS_XI_API_KEY env in
      let pinataJwt := PINATA_JWT env in
      if falsy privateKey || falsy contractAddress
         || falsy contractAddressFlow || falsy apiKey
         || falsy xiApiKey || falsy pinataJwt
      then
        callback msg_missing_env ;;
        ret false
      else
        try_catch
          (pipeline messages
             (narrow privateKey) (narrow contractAddress)
             (narrow contractAddressFlow) (narrow xiApiKey)
             (narrow pinataJwt))
          on_error
  end.

End Handler.

Arguments validate extractMessages _memory _state : assert.
Arguments generatePodcastContent {RandomParameters AudioReference}
  w messages randomParams apiKey : assert.

(** ** Observations on a run *)

Section Observations.

Context {RandomParameters AudioReference : Type}.

Local Abbreviation Collaborators := (Collaborators RandomParameters AudioReference).
Local Abbreviation event := (event RandomParameters AudioReference).
Local Abbreviation operation := (operation RandomParameters AudioReference).

(** The notifications of a run, in the order they were emitted. *)
Fixpoint notifications (tr : list event) : list string :=
  match tr with
  | [] => []
  | Notify text :: rest => text :: notifications rest
  | _ :: rest => notifications rest
  end.

(** How many times the notification [text] was emitted. *)
Definition count_notifications (text : string) (tr : list event) : nat :=
  length (filter (String.eqb text) (notifications tr)).

Definition error_of {A} (c : completion A) : option exn :=
  match c with
  | Return _ => None
  | Throw e => Some e
  end.

(** The exception an operation raises with these collaborators, if it
    raises. *)
Definition raised (w : Collaborators) (op : operation) : option exn :=
  match op with
  | OpNewBlockchainService privateKey contractAddress contractAddressFlow flag =>
      error_of (new_BlockchainService w privateKey contractAddress
                  contractAddressFlow flag)
  | OpNewAudioService xiApiKey => error_of (new_AudioService w xiApiKey)
  | OpNewIPFSService pinataJwt => error_of (new_IPFSService w pinataJwt)
  | OpRequestRandomParameters => error_of (requestRandomParameters w)
  | OpNewAnthropic apiKey => error_of (new_Anthropic w apiKey)
  | OpStringifyPrompt prompt => error_of (JSON_stringify_prompt w prompt)
  | OpMessagesCreate model max_tokens role content =>
      error_of (messages_create w model max_tokens role content)
  | OpGenerateAudio content => error_of (generateAudio w content)
  | OpUploadAudioFile audioPath => error_of (uploadAudioFile w audioPath)
  | OpStringifyParams randomParams =>
      error_of (JSON_stringify_params w randomParams)
  | OpUploadMetadata metadata => error_of (uploadMetadata w metadata)
  | OpUpdateTokenURI uri => error_of (updateTokenURI w uri)
  | OpCallStoryProtocol audioHash metadataHash =>
      error_of (callStoryProtocol w audioHash metadataHash)
  end.

(** The operations of the storage service and the two writes to the
    chain, all of which come after speech synthesis. *)
Definition storage_or_chain_write (op : operation) : bool :=
  match op with
  | OpUploadAudioFile _ | OpUploadMetadata _
  | OpUpdateTokenURI _ | OpCallStoryProtocol _ _ => true
  | _ => false
  end.



End Observations.

(** The text-typed segments of a response, in response order: the words of
    the spec for [GeneratedScript], to compare with what
    [generatePodcastContent] computes. *)
Fixpoint text_segments (response : list ContentBlock) : list string :=
  match response with
  | [] => []
  | TextBlock text :: rest => text :: text_segments rest
  | ToolUseBlock _ _ _ :: rest => text_segments rest
  end.

(** The six values pass the guard of the handler. *)
Definition configured (env : ProcessEnv) : bool :=
  negb (falsy (EVM_PRIVATE_KEY env) || falsy (CONTRACT_ADDRESS env)
        || falsy (CONTRACT_ADDRESS_FLOW env) || falsy (ANTHROPIC_API_KEY env)
        || falsy (ELEVENLABS_XI_API_KEY env) || falsy (PINATA_JWT env)).

Arguments handler {RandomParameters AudioReference}
  extractMessages env w _memory _state _callback : assert.

(** ** The order of the pipeline *)

(** The operations by name, without their arguments. *)
Inductive OpName : Type :=
| NewBlockchainService
| NewAudioService
| NewIPFSService
| RequestRandomParameters
| NewAnthropic
| StringifyPrompt
| MessagesCreate
| GenerateAudio
| UploadAudioFile
| StringifyParams
| UploadMetadata
| UpdateTokenURI
| CallStoryProtocol.

Definition op_name {R A : Type} (op : operation R A) : OpName :=
  match op with
  | OpNewBlockchainService _ _ _ _ => NewBlockchainService
  | OpNewAudioService _ => NewAudioService
  | OpNewIPFSService _ => NewIPFSService
  | OpRequestRandomParameters => RequestRandomParameters
  | OpNewAnthropic _ => NewAnthropic
  | OpStringifyPrompt _ => StringifyPrompt
  | OpMessagesCreate _ _ _ _ => MessagesCreate
  | OpGenerateAudio _ => GenerateAudio
  | OpUploadAudioFile _ => UploadAudioFile
  | OpStringifyParams _ => StringifyParams
  | OpUploadMetadata _ => UploadMetadata
  | OpUpdateTokenURI _ => UpdateTokenURI
  | OpCallStoryProtocol _ _ => CallStoryProtocol
  end.

(** The operations of a run, in the order they were attempted. *)
Fixpoint steps {R A : Type} (tr : list (event R A)) : list (operation R A) :=
  match tr with
  | [] => []
  | Step op :: rest => op :: steps rest
  | _ :: rest => steps rest
  end.

(** The order in which the [try] block of the handler is written. *)
Definition pipeline_order : list OpName :=
  [NewBlockchainService; NewAudioService; NewIPFSService;
   RequestRandomParameters; NewAnthropic; StringifyPrompt; MessagesCreate;
   GenerateAudio; UploadAudioFile; StringifyParams; UploadMetadata;
   UpdateTokenURI; CallStoryProtocol].


(** The six values the guard of the handler looks at. *)
Definition guarded_values (env : ProcessEnv) : list (option string) :=
  [EVM_PRIVATE_KEY env; CONTRACT_ADDRESS env; CONTRACT_ADDRESS_FLOW env;
   ANTHROPIC_API_KEY env; ELEVENLABS_XI_API_KEY env; PINATA_JWT env].

(** ** The handler with a callback that may throw

    The same action, without the assumption that the callback is a sink:
    calling the callback returns or throws, synchronously (the promise it
    returns is not awaited).  [_callback] is called outside the [try]
    block for the warning, inside it for the progress and success
    messages, and inside the [catch] clause for the failure notice. *)

Module Fallible.

Section Handler.

Context {RandomParameters AudioReference : Type}.

Local Abbreviation Collaborators := (Collaborators RandomParameters AudioReference).
Local Abbreviation M := (M RandomParameters AudioReference).

(** What a call of the callback with [{ text }] completes with. *)
Definition Callback : Type := string -> completion unit.

Variable extractMessages : string -> option (list string).
Variable env : ProcessEnv.
Variable w : Collaborators.

(** [_callback({ text })]: the call is an event, whether it returns or
    throws. *)
Definition callback (_callback : Callback) (text : string) : M unit :=
  ([Notify text], _callback text).

(** The body of the [try] block. *)
Definition pipeline (_callback : Callback)
  (messages : option (list string))
  (privateKey contractAddress contractAddressFlow xiApiKey pinataJwt : string)
  : M bool :=
  let! blockchainService :=
    step (OpNewBlockchainService privateKey contractAddress contractAddressFlow false)
         (new_BlockchainService w privateKey contractAddress contractAddressFlow false) in
  let! audioService :=
    step (OpNewAudioService xiApiKey) (new_AudioService w xiApiKey) in
  let! ipfsService :=
    step (OpNewIPFSService pinataJwt) (new_IPFSService w pinataJwt) in
  callback _callback msg_random ;;
  let! randomParams :=
    step OpRequestRandomParameters (requestRandomParameters w) in
  callback _callback msg_content ;;
  let! content :=
    generatePodcastContent w
      (match messages with
       | Some messages => messages
       | None => ["Awesome messages!"]
       end)
      randomParams
      (narrow (ANTHROPIC_API_KEY env)) in
  callback _callback msg_speech ;;
  let! audioPath := step (OpGenerateAudio content) (generateAudio w content) in
  callback _callback msg_ipfs ;;
  let! audioHash :=
    step (OpUploadAudioFile audioPath) (uploadAudioFile w audioPath) in
  let! serialized :=
    step (OpStringifyParams randomParams) (JSON_stringify_params w randomParams) in
  let metadata : PodcastMetadata := {|
    name := "BuffiCast Podcast";
    description := "Podcast generated by BuffiCast with parameters: " ++ serialized;
    image := "https://ipfs.io/ipfs/bafkreifqzkq7tzppc22fa2f52sg2cruvomne2tp34yhdnx3ub2xw24b52m";
    external_url := "https://ipfs.io/ipfs/" ++ audioHash
  |} in
  let! metadataHash :=
    step (OpUploadMetadata metadata) (uploadMetadata w metadata) in
  callback _callback msg_token_uri ;;
  step (OpUpdateTokenURI ("https://ipfs.io/ipfs/" ++ metadataHash))
       (updateTokenURI w ("https://ipfs.io/ipfs/" ++ metadataHash)) ;;
  callback _callback msg_minting ;;
  let! resp :=
    step (OpCallStoryProtocol audioHash metadataHash)
         (callStoryProtocol w audioHash metadataHash) in
  callback _callback (msg_secured resp) ;;
  callback _callback msg_success ;;
  ret true.

(** The [catch] clause: an exception of the callback leaves it. *)
Definition on_error (_callback : Callback) (error : exn) : M bool :=
  elizaLogger_error "Podcast Generation Error:" error ;;
  callback _callback msg_failure ;;
  ret false.

Definition handler
  (_memory : Memory) (_state : option State.t)
  (_callback : option Callback) : M bool :=
  match _callback with
  | None => throw (Error "Callback is required")
  | Some _callback =>
      let messages := extractMessages (text (content _memory)) in
      let privateKey := EVM_PRIVATE_KEY env in
      let contractAddress := CONTRACT_ADDRESS env in
      let contractAddressFlow := CONTRACT_ADDRESS_FLOW env in
      let apiKey := ANTHROPIC_API_KEY env in
      let xiApiKey := ELEVENLABS_XI_API_KEY env in
      let pinataJwt := PINATA_JWT env in
      if falsy privateKey || falsy contractAddress
         || falsy contractAddressFlow || falsy apiKey
         || falsy xiApiKey || falsy pinataJwt
      then
        callback _callback msg_missing_env ;;
        ret false
      else
        try_catch
          (pipeline _callback messages
             (narrow privateKey) (narrow contractAddress)
             (narrow contractAddressFlow) (narrow xiApiKey)
             (narrow pinataJwt))
          (on_error _callback)
  end.

End Handler.

Arguments handler {RandomParameters AudioReference}
  extractMessages env w _memory _state _callback : assert.

(** A text of the [try] block: any notification but the warning, which
    is emitted before the block, and the failure notice, which is
    emitted by the [catch] clause. *)
Definition inside_try (text : string) : Prop :=
  text <> msg_missing_env /\ text <> msg_failure.

End Fallible.

(** ** Test doubles

    Concrete collaborators, used to run the handler on examples. *)

Module Stub.

(** The quotation mark, U+0022. *)
Definition quote : ascii := "034"%char.

(** Modelled from the spec: [extractMessages] of [./utils/utils], which is
    not among the sources.  The spec (4.1) has it extract the fragments
    delimited by a pair of quotation marks, in order of appearance, and
    return a sentinel when there is none.  [inside] is the fragment being
    read, if a quotation mark is open. *)
Fixpoint quoted_fragments (inside : option string) (s : string) : list string :=
  match s with
  | EmptyString => []
  | String c s' =>
      if Ascii.eqb c quote then
        match inside with
        | Some fragment => fragment :: quoted_fragments None s'
        | None => quoted_fragments (Some EmptyString) s'
        end
      else
        match inside with
        | Some fragment =>
            quoted_fragments (Some (fragment ++ String c EmptyString)) s'
        | None => quoted_fragments None s'
        end
  end.

(** Modelled from the spec: [extractMessages] of [./utils/utils] returns
    the batch of quoted fragments, or the sentinel ([None]) when no
    fragment is found; a batch is never empty (spec, 3 and 4.1). *)
Definition extractMessages (text : string) : option (list string) :=
  match quoted_fragments None text with
  | [] => None
  | fragments => Some fragments
  end.

(** A JSON string literal; the texts of the examples hold no control
    character, so only the quotation mark and the backslash are escaped. *)
Fixpoint escape (s : string) : string :=
  match s with
  | EmptyString => EmptyString
  | String c s' =>
      if Ascii.eqb c quote || Ascii.eqb c "\"%char
      then String "\"%char (String c (escape s'))
      else String c (escape s')
  end.

Definition json_string (s : string) : string :=
  String quote (escape s) ++ String quote EmptyString.

Definition json_key (k : string) : string := json_string k ++ ":".

(** The random parameters of the examples are one number. *)
Definition json_nat (n : nat) : string :=
  NilEmpty.string_of_uint (Nat.to_uint n).

Definition json_prompt (p : PodcastPrompt nat) : string :=
  "{" ++ json_key "instruction" ++ json_string (instruction p)
  ++ "," ++ json_key "topic" ++ json_string (topic p)
  ++ "," ++ json_key "daily_messages"
  ++ "[" ++ String.concat "," (map json_string (daily_messages p)) ++ "]"
  ++ "," ++ json_key "random_parameters" ++ json_nat (random_parameters p)
  ++ "," ++ json_key "duration" ++ json_string (duration p)
  ++ "," ++ json_key "language" ++ json_string (language p) ++ "}".

(** Every collaborator succeeds, deterministically. *)
Definition succeeding : Collaborators nat string := {|
  new_BlockchainService := fun _ _ _ _ => Return tt;
  new_AudioService := fun _ => Return tt;
  new_IPFSService := fun _ => Return tt;
  requestRandomParameters := Return 42;
  new_Anthropic := fun _ => Return tt;
  JSON_stringify_prompt := fun p => Return (json_prompt p);
  messages_create := fun _ _ _ _ =>
    Return [TextBlock "Welcome to BuffiCast.";
            ToolUseBlock "toolu_01" "lookup" "{}";
            TextBlock "See you tomorrow."];
  generateAudio := fun _ => Return "podcast.mp3";
  uploadAudioFile := fun _ => Return "QmAudio";
  JSON_stringify_params := fun n => Return (json_nat n);
  uploadMetadata := fun _ => Return "QmMeta";
  updateTokenURI := fun _ => Return tt;
  callStoryProtocol := fun _ _ =>
    Return {| txHash := "0xfeed01"; ipId := "0x1d0042" |}
|}.

(** The same, but speech synthesis fails. *)
Definition speech_down : Collaborators nat string := {|
  new_BlockchainService := new_BlockchainService succeeding;
  new_AudioService := new_AudioService succeeding;
  new_IPFSService := new_IPFSService succeeding;
  requestRandomParameters := requestRandomParameters succeeding;
  new_Anthropic := new_Anthropic succeeding;
  JSON_stringify_prompt := JSON_stringify_prompt succeeding;
  messages_create := messages_create succeeding;
  generateAudio := fun _ => Throw (Error "ElevenLabs: 401 Unauthorized");
  uploadAudioFile := uploadAudioFile succeeding;
  JSON_stringify_params := JSON_stringify_params succeeding;
  uploadMetadata := uploadMetadata succeeding;
  updateTokenURI := updateTokenURI succeeding;
  callStoryProtocol := callStoryProtocol succeeding
|}.

(** All six values set. *)
Definition env_complete : ProcessEnv := {|
  EVM_PRIVATE_KEY := Some "0xkey";
  CONTRACT_ADDRESS := Some "0xc0ffee";
  CONTRACT_ADDRESS_FLOW := Some "0xf10";
  ANTHROPIC_API_KEY := Some "sk-ant-test";
  ELEVENLABS_XI_API_KEY := Some "xi-test";
  PINATA_JWT := Some "jwt-test"
|}.



(** The first example of the action:
    [use Chainlink to create me a speech "eth denver is awesome", "bufficast project is the best"] *)
Definition example_text : string :=
  "use Chainlink to create me a speech "
  ++ String quote "eth denver is awesome" ++ String quote ", "
  ++ String quote "bufficast project is the best" ++ String quote EmptyString.

Definition example_memory : Memory :=
  {| content := {| text := example_text |} |}.

(** A text without quotation marks. *)
Definition plain_memory : Memory :=
  {| content := {| text := "make me a podcast" |} |}.

(** A later message of the same session: [say "gm"]. *)
Definition later_memory : Memory :=
  {| content :=
       {| text := "say " ++ String quote "gm" ++ String quote EmptyString |} |}.

Definition empty_state : State.t :=
  {| State.daily_messages := None; State.others := [] |}.

(** A state whose batch was attached for another message. *)
Definition stale_state : State.t :=
  {| State.daily_messages := Some ["gm"]; State.others := [] |}.

(** The language model is overloaded. *)
Definition model_down : Collaborators nat string := {|
  new_BlockchainService := new_BlockchainService succeeding;
  new_AudioService := new_AudioService succeeding;
  new_IPFSService := new_IPFSService succeeding;
  requestRandomParameters := requestRandomParameters succeeding;
  new_Anthropic := new_Anthropic succeeding;
  JSON_stringify_prompt := JSON_stringify_prompt succeeding;
  messages_create := fun _ _ _ _ => Throw (Error "529 overloaded_error");
  generateAudio := generateAudio succeeding;
  uploadAudioFile := uploadAudioFile succeeding;
  JSON_stringify_params := JSON_stringify_params succeeding;
  uploadMetadata := uploadMetadata succeeding;
  updateTokenURI := updateTokenURI succeeding;
  callStoryProtocol := callStoryProtocol succeeding
|}.


(** A callback that always returns. *)
Definition quiet : Fallible.Callback := fun _ => Return tt.

(** A callback whose channel is closed by the time of the failure
    notice. *)
Definition closed_on_failure : Fallible.Callback :=
  fun text =>
    if String.eqb text msg_failure then Throw (Error "socket closed")
    else Return tt.

(** A callback that throws on the speech message. *)
Definition closed_on_speech : Fallible.Callback :=
  fun text =>
    if String.eqb text msg_speech then Throw (Error "socket closed")
    else Return tt.

End Stub.

(** ** Properties *)

(** *** Helper lemmas *)

Lemma prefix_app (n s : string) : String.prefix n (n ++ s) = true.
Proof.
  induction n as [|c n IH]; simpl.
  - destruct s; reflexivity.
  - destruct (ascii_dec c c) as [_|ne]; [exact IH | contradiction].
Qed.

Lemma includes_prefix (n s : string) : includes (n ++ s) n = true.
Proof.
  destruct n as [|c n]; simpl.
  - destruct s; reflexivity.
  - destruct (ascii_dec c c) as [_|ne]; [|contradiction].
    rewrite prefix_app. reflexivity.
Qed.

Lemma includes_app_r (a s n : string) :
  includes s n = true -> includes (a ++ s) n = true.
Proof.
  intros H. induction a as [|c a IH]; simpl.
  - exact H.
  - rewrite IH. apply orb_true_r.
Qed.

Lemma includes_suffix (a n : string) : includes (a ++ n) n = true.
Proof.
  apply includes_app_r.
  rewrite <- (includes_prefix n EmptyString).
  f_equal. induction n as [|c n IH]; simpl; [reflexivity | now rewrite <- IH].
Qed.

Lemma filter_text_blocks (response : list ContentBlock) :
  map block_text
    (filter (fun block => String.eqb (block_type block) "text") response)
  = map Some (text_segments response).
Proof.
  induction response as [|block rest IH]; simpl.
  - reflexivity.
  - destruct block as [text | id name input]; simpl.
    + now rewrite IH.
    + exact IH.
Qed.

Lemma join_defined (sep : string) (l : list string) :
  join sep (map Some l) = String.concat sep l.
Proof.
  induction l as [|x rest IH].
  - reflexivity.
  - destruct rest as [|y rest'].
    + reflexivity.
    + change (join sep (map Some (x :: y :: rest')))
        with (x ++ sep ++ join sep (map Some (y :: rest'))).
      rewrite IH. reflexivity.
Qed.

Lemma text_segments_app (r1 r2 : list ContentBlock) :
  text_segments (r1 ++ r2) = (text_segments r1 ++ text_segments r2)%list.
Proof.
  induction r1 as [|block rest IH]; simpl.
  - reflexivity.
  - destruct block; simpl; now rewrite IH.
Qed.

(** The guard of the handler, in terms of [configured]. *)
Lemma guard_configured (env : ProcessEnv) :
  (falsy (EVM_PRIVATE_KEY env) || falsy (CONTRACT_ADDRESS env)
   || falsy (CONTRACT_ADDRESS_FLOW env) || falsy (ANTHROPIC_API_KEY env)
   || falsy (ELEVENLABS_XI_API_KEY env) || falsy (PINATA_JWT env))
  = negb (configured env).
Proof. unfold configured. now rewrite negb_involutive. Qed.





(** *** Running the handler symbolically *)

(** Unfolds the handler down to the completions of the collaborators. *)
Ltac unfold_run :=
  unfold handler, pipeline, generatePodcastContent, on_error, callback,
    elizaLogger_error, try_catch, bind, step, emit, ret, throw, events,
    result in *.

(** Case analysis on the next collaborator the run consults. *)
Ltac next_completion :=
  match goal with
  | |- context [match ?c with Return _ => _ | Throw _ => _ end] =>
      let E := fresh "E" in
      destruct c eqn:E; cbn [fst snd app] in *
  end.

Ltac all_completions :=
  cbn [fst snd app negb] in *; repeat next_completion.

(** Splits a hypothesis [In x [x1; ...; xn]] into its [n] cases. *)
Ltac in_cases H :=
  cbn [In] in H;
  repeat (let H' := fresh H in destruct H as [H'|H]; [rename H' into H |]);
  try contradiction.

(** Proves [In x [x1; ...; xn]] when [x] is one of the [xi]. *)
Ltac in_list := cbn [In]; repeat first [left; reflexivity | right].

(** Closes a case in which an operation raised although the hypothesis
    [H] says that no operation of the run does. *)
Ltac refute_with H :=
  exfalso;
  match type of H with
  | forall op, In (Step op) ?tr -> _ =>
      match tr with
      | context [Step ?o] =>
          let K := fresh "K" in
          assert (K := H o); cbn [raised error_of] in K;
          match goal with
          | E : ?c = Throw _ |- _ => rewrite E in K
          end;
          discriminate K; in_list
      end
  end.



(** A value that passed the guard is a string, and [narrow] is that
    string. *)
Lemma narrow_guarded (v : option string) :
  falsy v = false -> v = Some (narrow v) /\ narrow v <> EmptyString.
Proof.
  destruct v as [s|]; simpl; [| discriminate].
  intros H. split; [reflexivity |].
  intros ->. discriminate H.
Qed.

(** Six values that are present and not empty pass the guard. *)
Lemma present_configured (env : ProcessEnv) :
  (forall v,
      In v [EVM_PRIVATE_KEY env; CONTRACT_ADDRESS env;
            CONTRACT_ADDRESS_FLOW env; ANTHROPIC_API_KEY env;
            ELEVENLABS_XI_API_KEY env; PINATA_JWT env] ->
      exists s, v = Some s /\ s <> EmptyString) ->
  configured env = true.
Proof.
  intros Hall.
  assert (Hf : forall v,
             In v [EVM_PRIVATE_KEY env; CONTRACT_ADDRESS env;
                   CONTRACT_ADDRESS_FLOW env; ANTHROPIC_API_KEY env;
                   ELEVENLABS_XI_API_KEY env; PINATA_JWT env] ->
             falsy v = false).
  { intros v Hv. destruct (Hall v Hv) as (s & -> & Hs).
    now apply String.eqb_neq. }
  unfold configured.
  rewrite !Hf by in_list. reflexivity.
Qed.




(** The batch of every prompt the handler builds is the one extracted
    from the text of the message, or the default one. *)
Lemma handler_prompt_batch {R A : Type}
  (extractMessages : string -> option (list string)) (env : ProcessEnv)
  (w : Collaborators R A) (_memory : Memory) (_state : option State.t)
  (_callback : option HandlerCallback) (prompt : PodcastPrompt R) :
  In (Step (OpStringifyPrompt prompt))
     (events (handler extractMessages env w _memory _state _callback)) ->
  daily_messages prompt
  = match extractMessages (text (content _memory)) with
    | Some messages => messages
    | None => ["Awesome messages!"]
    end.
Proof.
  destruct _callback as [cb|]; [| intros []].
  unfold_run. rewrite guard_configured.
  destruct (configured env);
    [| intros Hin; in_cases Hin; discriminate Hin].
  all_completions; intros Hin; in_cases Hin; try discriminate Hin;
    injection Hin as Hin; subst prompt; reflexivity.
Qed.

(** The handler never looks at [_state]. *)
Lemma handler_state_irrelevant {R A : Type}
  (extractMessages : string -> option (list string)) (env : ProcessEnv)
  (w : Collaborators R A) (_memory : Memory)
  (_state _state' : option State.t) (_callback : option HandlerCallback) :
  handler extractMessages env w _memory _state _callback
  = handler extractMessages env w _memory _state' _callback.
Proof. reflexivity. Qed.

(** When the oracle has answered and the client of the language model is
    constructed, the prompt is built. *)
Lemma handler_reaches_prompt {R A : Type}
  (extractMessages : string -> option (list string)) (env : ProcessEnv)
  (w : Collaborators R A) (_memory : Memory) (_state : option State.t)
  (_callback : option HandlerCallback) (randomParams : R) :
  let run := handler extractMessages env w _memory _state _callback in
  In (Step OpRequestRandomParameters) (events run) ->
  requestRandomParameters w = Return randomParams ->
  new_Anthropic w (narrow (ANTHROPIC_API_KEY env)) = Return tt ->
  exists prompt,
    In (Step (OpStringifyPrompt prompt)) (events run)
    /\ random_parameters prompt = randomParams.
Proof.
  intros run Hin Hrp Hclient. subst run. revert Hin.
  destruct _callback as [cb|]; [| intros []].
  unfold_run. rewrite guard_configured.
  destruct (configured env);
    [| intros Hin; in_cases Hin; discriminate Hin].
  all_completions; intros Hin; try congruence;
    try (in_cases Hin; discriminate Hin);
    (eexists; split; [in_list | cbn [random_parameters]; congruence]).
Qed.

(** With a callback, a complete configuration, services that can be
    constructed, an oracle that answers and a client that can be
    constructed, the handler builds the prompt from the batch of the text
    (or the default one) and the answer of the oracle, and goes on to the
    end when every operation succeeds. *)
Lemma handler_builds_prompt {R A : Type}
  (extractMessages : string -> option (list string)) (env : ProcessEnv)
  (w : Collaborators R A) (_memory : Memory) (_state : option State.t)
  (cb : HandlerCallback) (randomParams : R) :
  configured env = true ->
  new_BlockchainService w (narrow (EVM_PRIVATE_KEY env))
    (narrow (CONTRACT_ADDRESS env)) (narrow (CONTRACT_ADDRESS_FLOW env))
    false = Return tt ->
  new_AudioService w (narrow (ELEVENLABS_XI_API_KEY env)) = Return tt ->
  new_IPFSService w (narrow (PINATA_JWT env)) = Return tt ->
  requestRandomParameters w = Return randomParams ->
  new_Anthropic w (narrow (ANTHROPIC_API_KEY env)) = Return tt ->
  let run := handler extractMessages env w _memory _state (Some cb) in
  In (Step (OpStringifyPrompt
              {| instruction := "Generate a podcast script based on the day's messages. Create natural speech without formatting.";
                 topic := "Ethereum Denver 2025 daily podcast";
                 daily_messages :=
                   match extractMessages (text (content _memory)) with
                   | Some messages => messages
                   | None => ["Awesome messages!"]
                   end;
                 random_parameters := randomParams;
                 duration := "20 Seconds";
                 language := "English" |}))
     (events run)
  /\ ((forall op, In (Step op) (events run) -> raised w op = None) ->
      result run = Return true).
Proof.
  intros Hc Hb Ha Hi Hrp Hcl run. subst run.
  revert Hb Ha Hi Hrp Hcl.
  unfold_run. rewrite guard_configured, Hc.
  all_completions; intros Hb Ha Hi Hrp Hcl; try congruence;
    injection Hrp as Hrp; subst;
    (split; [in_list |]); intros Hok;
    first [reflexivity | solve [refute_with Hok]].
Qed.

(** *** The claims *)

(** C9. Invoked with no callback, the handler throws ("Callback is
    required") whatever the configuration and the collaborators are:
    before the configuration check and outside the [try] block.  The run
    has no event at all, so no notification is emitted, nothing is
    logged, and the promise is rejected instead of resolving to [false]. *)
Theorem handler_without_callback_throws {R A : Type}
  (extractMessages : string -> option (list string)) (env : ProcessEnv)
  (w : Collaborators R A) (_memory : Memory) (_state : option State.t) :
  let run := handler extractMessages env w _memory _state None in
  events run = []
  /\ notifications (events run) = []
  /\ result run = Throw (Error "Callback is required").
Proof. repeat split. Qed.









(** C4. In every run that reaches speech synthesis (so the language-model
    call had succeeded) and in which [generateAudio] raises, no operation
    of the storage service ([uploadAudioFile], [uploadMetadata]) and no
    write to the chain ([updateTokenURI], [callStoryProtocol]) is
    attempted, the generic failure notification is emitted exactly once,
    and the handler resolves to [false]. *)
Theorem speech_failure_stops_pipeline {R A : Type}
  (extractMessages : string -> option (list string)) (env : ProcessEnv)
  (w : Collaborators R A) (_memory : Memory) (_state : option State.t)
  (_callback : option HandlerCallback) (content : string) (e : exn) :
  let run := handler extractMessages env w _memory _state _callback in
  In (Step (OpGenerateAudio content)) (events run) ->
  generateAudio w content = Throw e ->
  (exists payload response,
      messages_create w "claude-3-haiku-20240307" 1024 "user" payload
      = Return response
      /\ content = String.concat newline (text_segments response))
  /\ (forall op, In (Step op) (events run) ->
                 storage_or_chain_write op = false)
  /\ count_notifications msg_failure (events run) = 1
  /\ result run = Return false.
Proof.
  intros run Hin Hthrow. subst run. revert Hin.
  destruct _callback as [cb|]; [| intros []].
  unfold_run. rewrite guard_configured.
  destruct (configured env);
    [| intros Hin; in_cases Hin; discriminate Hin].
  all_completions; intros Hin; in_cases Hin; try discriminate Hin;
    injection Hin as Hin; subst content; try congruence.
  split.
  - eexists _, _. split; [eassumption |].
    now rewrite filter_text_blocks, join_defined.
  - repeat split.
    intros op Hop. in_cases Hop; try discriminate Hop;
      injection Hop as Hop; subst op; reflexivity.
Qed.

(** C4 on the same run. *)
Lemma speech_failure_stops_pipeline_witness :
  let run :=
    handler Stub.extractMessages Stub.env_complete Stub.speech_down
      Stub.example_memory (Some Stub.empty_state) (Some Sink) in
  let content :=
    "Welcome to BuffiCast." ++ newline ++ "See you tomorrow." in
  In (Step (OpGenerateAudio content)) (events run)
  /\ generateAudio Stub.speech_down content
     = Throw (Error "ElevenLabs: 401 Unauthorized")
  /\ (exists payload response,
        messages_create Stub.speech_down "claude-3-haiku-20240307" 1024
          "user" payload = Return response
        /\ content = String.concat newline (text_segments response))
  /\ (forall op, In (Step op) (events run) ->
                 storage_or_chain_write op = false)
  /\ count_notifications msg_failure (events run) = 1
  /\ result run = Return false.
Proof.
  split; [vm_compute; tauto |]. split; [reflexivity |].
  apply (speech_failure_stops_pipeline Stub.extractMessages
           Stub.env_complete Stub.speech_down Stub.example_memory
           (Some Stub.empty_state) (Some Sink) _
           (Error "ElevenLabs: 401 Unauthorized")).
  - vm_compute; tauto.
  - reflexivity.
Defined.

(** C6. Whatever the message batch and the random parameters are,
    [generatePodcastContent] builds one prompt, whose instruction, topic,
    duration and language are the fixed strings and whose
    [daily_messages] and [random_parameters] are the two inputs.  Building
    it consults no collaborator and cannot fail: once the client is
    constructed the prompt is handed to the serialiser, with nothing in
    between, and what is sent to the language model is its serialisation. *)
Theorem prompt_fields {R A : Type} (w : Collaborators R A)
  (messages : list string) (randomParams : R) (apiKey : string) :
  exists prompt : PodcastPrompt R,
    instruction prompt
    = "Generate a podcast script based on the day's messages. Create natural speech without formatting."
    /\ topic prompt = "Ethereum Denver 2025 daily podcast"
    /\ daily_messages prompt = messages
    /\ random_parameters prompt = randomParams
    /\ duration prompt = "20 Seconds"
    /\ language prompt = "English"
    /\ events (generatePodcastContent w messages randomParams apiKey)
       = Step (OpNewAnthropic apiKey)
         :: match new_Anthropic w apiKey with
            | Throw _ => []
            | Return _ =>
                Step (OpStringifyPrompt prompt)
                :: match JSON_stringify_prompt w prompt with
                   | Throw _ => []
                   | Return payload =>
                       [Step (OpMessagesCreate "claude-3-haiku-20240307"
                                1024 "user" payload)]
                   end
            end.
Proof.
  eexists {| instruction := _ |}. cbn [instruction topic daily_messages
    random_parameters duration language].
  repeat (split; [reflexivity |]).
  unfold_run. all_completions; reflexivity.
Qed.

(** C7. When the language model answers with a sequence of content
    blocks, [generatePodcastContent] resolves to the texts of the
    text-typed blocks, in response order, joined by newlines; the other
    blocks are discarded. *)
Theorem script_joins_text_blocks {R A : Type} (w : Collaborators R A)
  (messages : list string) (randomParams : R) (apiKey payload : string)
  (response : list ContentBlock) :
  let run := generatePodcastContent w messages randomParams apiKey in
  In (Step (OpMessagesCreate "claude-3-haiku-20240307" 1024 "user" payload))
     (events run) ->
  messages_create w "claude-3-haiku-20240307" 1024 "user" payload
  = Return response ->
  result run = Return (String.concat newline (text_segments response)).
Proof.
  intros run Hin Hresp. subst run. revert Hin.
  unfold_run.
  all_completions; intros Hin; in_cases Hin; try discriminate Hin;
    injection Hin as Hin; subst payload; try congruence.
  rewrite filter_text_blocks, join_defined. congruence.
Qed.

(** C7 on a response of two text blocks around a tool-use block. *)
Lemma script_joins_text_blocks_witness :
  let run := generatePodcastContent Stub.succeeding ["gm"] 42 "sk-ant-test" in
  let payload :=
    Stub.json_prompt
      {| instruction := "Generate a podcast script based on the day's messages. Create natural speech without formatting.";
         topic := "Ethereum Denver 2025 daily podcast";
         daily_messages := ["gm"];
         random_parameters := 42;
         duration := "20 Seconds";
         language := "English" |} in
  let response :=
    [TextBlock "Welcome to BuffiCast.";
     ToolUseBlock "toolu_01" "lookup" "{}";
     TextBlock "See you tomorrow."] in
  In (Step (OpMessagesCreate "claude-3-haiku-20240307" 1024 "user" payload))
     (events run)
  /\ messages_create Stub.succeeding "claude-3-haiku-20240307" 1024 "user"
       payload = Return response
  /\ result run
     = Return ("Welcome to BuffiCast." ++ newline ++ "See you tomorrow.").
Proof.
  intros run payload response.
  split; [vm_compute; tauto |]. split; [reflexivity |].
  apply (script_joins_text_blocks Stub.succeeding ["gm"] 42 "sk-ant-test"
           payload response).
  - vm_compute; tauto.
  - reflexivity.
Defined.

(** C8. Every metadata object the handler hands to [uploadMetadata] has
    the fixed name and the fixed image URL; its description is the fixed
    sentence followed by the serialisation of the random parameters the
    oracle returned, and its [external_url] is the IPFS gateway prefix
    followed by the content identifier that the upload of the audio
    returned. *)
Theorem uploaded_metadata_shape {R A : Type}
  (extractMessages : string -> option (list string)) (env : ProcessEnv)
  (w : Collaborators R A) (_memory : Memory) (_state : option State.t)
  (_callback : option HandlerCallback) (metadata : PodcastMetadata) :
  let run := handler extractMessages env w _memory _state _callback in
  In (Step (OpUploadMetadata metadata)) (events run) ->
  exists randomParams serialized audioPath audioHash,
    requestRandomParameters w = Return randomParams
    /\ JSON_stringify_params w randomParams = Return serialized
    /\ In (Step (OpUploadAudioFile audioPath)) (events run)
    /\ uploadAudioFile w audioPath = Return audioHash
    /\ name metadata = "BuffiCast Podcast"
    /\ description metadata
       = "Podcast generated by BuffiCast with parameters: " ++ serialized
    /\ includes (description metadata) serialized = true
    /\ image metadata
       = "https://ipfs.io/ipfs/bafkreifqzkq7tzppc22fa2f52sg2cruvomne2tp34yhdnx3ub2xw24b52m"
    /\ external_url metadata = "https://ipfs.io/ipfs/" ++ audioHash
    /\ includes (external_url metadata) audioHash = true.
Proof.
  intros run Hin. subst run. revert Hin.
  destruct _callback as [cb|]; [| intros []].
  unfold_run. rewrite guard_configured.
  destruct (configured env);
    [| intros Hin; in_cases Hin; discriminate Hin].
  all_completions; intros Hin; in_cases Hin; try discriminate Hin;
    injection Hin as Hin; subst metadata;
    match goal with
    | E1 : requestRandomParameters _ = Return ?rp,
      E2 : JSON_stringify_params _ ?rp = Return ?s,
      E3 : uploadAudioFile _ ?path = Return ?hash |- _ =>
        exists rp, s, path, hash
    end;
    cbn [name description image external_url];
    (split; [reflexivity |]); (split; [assumption |]);
    (split; [in_list |]); (split; [assumption |]);
    repeat split;
    first [ exact (includes_suffix
                     "Podcast generated by BuffiCast with parameters: " _)
          | exact (includes_suffix "https://ipfs.io/ipfs/" _) ].
Qed.

(** C8 on the run in which every test double succeeds. *)
Lemma uploaded_metadata_shape_witness :
  let run :=
    handler Stub.extractMessages Stub.env_complete Stub.succeeding
      Stub.example_memory (Some Stub.empty_state) (Some Sink) in
  let metadata :=
    {| name := "BuffiCast Podcast";
       description := "Podcast generated by BuffiCast with parameters: 42";
       image := "https://ipfs.io/ipfs/bafkreifqzkq7tzppc22fa2f52sg2cruvomne2tp34yhdnx3ub2xw24b52m";
       external_url := "https://ipfs.io/ipfs/QmAudio" |} in
  In (Step (OpUploadMetadata metadata)) (events run)
  /\ exists randomParams serialized audioPath audioHash,
       requestRandomParameters Stub.succeeding = Return randomParams
       /\ JSON_stringify_params Stub.succeeding randomParams
          = Return serialized
       /\ In (Step (OpUploadAudioFile audioPath)) (events run)
       /\ uploadAudioFile Stub.succeeding audioPath = Return audioHash
       /\ name metadata = "BuffiCast Podcast"
       /\ description metadata
          = "Podcast generated by BuffiCast with parameters: " ++ serialized
       /\ includes (description metadata) serialized = true
       /\ image metadata
          = "https://ipfs.io/ipfs/bafkreifqzkq7tzppc22fa2f52sg2cruvomne2tp34yhdnx3ub2xw24b52m"
       /\ external_url metadata = "https://ipfs.io/ipfs/" ++ audioHash
       /\ includes (external_url metadata) audioHash = true.
Proof.
  intros run metadata.
  split; [vm_compute; tauto |].
  apply (uploaded_metadata_shape Stub.extractMessages Stub.env_complete
           Stub.succeeding Stub.example_memory (Some Stub.empty_state)
           (Some Sink) metadata).
  vm_compute; tauto.
Defined.

(** C10. The batch of the prompt comes from the text of the message, not
    from the session state: every prompt the handler builds carries the
    batch re-extracted from the text, the run is the same whatever state
    the handler is given, and when the extraction yields no messages the
    batch is the single default message.  In that case the handler does
    not abort: the run is the one of a text whose batch is that message;
    and whenever a callback is given, the six values are present and not
    empty, the three services and the client of the language model can
    be constructed and the oracle answers, the prompt with that batch
    and the answer of the oracle is built and handed to the serialiser,
    and the run goes on to resolve to [true] if every operation it
    attempts succeeds. *)
Theorem handler_batch_from_text {R A : Type}
  (extractMessages : string -> option (list string)) (env : ProcessEnv)
  (w : Collaborators R A) (_memory : Memory) (_state : option State.t)
  (_callback : option HandlerCallback) :
  let run := handler extractMessages env w _memory _state _callback in
  let batch :=
    match extractMessages (text (content _memory)) with
    | Some messages => messages
    | None => ["Awesome messages!"]
    end in
  (forall prompt,
      In (Step (OpStringifyPrompt prompt)) (events run) ->
      daily_messages prompt = batch)
  /\ (forall _state',
        handler extractMessages env w _memory _state' _callback = run)
  /\ (forall extractMessages',
        extractMessages' (text (content _memory)) = Some batch ->
        handler extractMessages' env w _memory _state _callback = run)
  /\ (forall randomParams,
        In (Step OpRequestRandomParameters) (events run) ->
        requestRandomParameters w = Return randomParams ->
        new_Anthropic w (narrow (ANTHROPIC_API_KEY env)) = Return tt ->
        exists prompt,
          In (Step (OpStringifyPrompt prompt)) (events run)
          /\ daily_messages prompt = batch
          /\ random_parameters prompt = randomParams)
  /\ (forall cb randomParams,
        _callback = Some cb ->
        (forall v, In v (guarded_values env) ->
                   exists s, v = Some s /\ s <> EmptyString) ->
        new_BlockchainService w (narrow (EVM_PRIVATE_KEY env))
          (narrow (CONTRACT_ADDRESS env))
          (narrow (CONTRACT_ADDRESS_FLOW env)) false = Return tt ->
        new_AudioService w (narrow (ELEVENLABS_XI_API_KEY env))
        = Return tt ->
        new_IPFSService w (narrow (PINATA_JWT env)) = Return tt ->
        requestRandomParameters w = Return randomParams ->
        new_Anthropic w (narrow (ANTHROPIC_API_KEY env)) = Return tt ->
        In (Step (OpStringifyPrompt
                    {| instruction := "Generate a podcast script based on the day's messages. Create natural speech without formatting.";
                       topic := "Ethereum Denver 2025 daily podcast";
                       daily_messages := batch;
                       random_parameters := randomParams;
                       duration := "20 Seconds";
                       language := "English" |}))
           (events run)
        /\ ((forall op, In (Step op) (events run) -> raised w op = None) ->
            result run = Return true)).
Proof.
  intros run batch. repeat split.
  - intros prompt. apply handler_prompt_batch.
  - intros extractMessages' Hsame. subst run batch.
    unfold handler. rewrite Hsame.
    destruct (extractMessages (text (content _memory))); reflexivity.
  - intros randomParams Hin Hrp Hclient.
    destruct (handler_reaches_prompt extractMessages env w _memory _state
                _callback randomParams Hin Hrp Hclient)
      as (prompt & Hprompt & Hparams).
    exists prompt. repeat split; try assumption.
    exact (handler_prompt_batch _ _ _ _ _ _ _ Hprompt).
  - subst run batch _callback.
    apply (handler_builds_prompt extractMessages env w _memory _state cb
             randomParams); try assumption.
    now apply present_configured.
  - subst run _callback.
    apply (handler_builds_prompt extractMessages env w _memory _state cb
             randomParams); try assumption.
    now apply present_configured.
Qed.

(** C10 on a text without quotation marks, with a state that holds the
    batch of another message: the prompt is built with the default
    batch and the run succeeds. *)
Lemma handler_batch_from_text_witness :
  let run :=
    handler Stub.extractMessages Stub.env_complete Stub.succeeding
      Stub.plain_memory (Some Stub.stale_state) (Some Sink) in
  Stub.extractMessages (text (content Stub.plain_memory)) = None
  /\ State.daily_messages Stub.stale_state = Some ["gm"]
  /\ (forall prompt,
        In (Step (OpStringifyPrompt prompt)) (events run) ->
        daily_messages prompt = ["Awesome messages!"])
  /\ In (Step (OpStringifyPrompt
                 {| instruction := "Generate a podcast script based on the day's messages. Create natural speech without formatting.";
                    topic := "Ethereum Denver 2025 daily podcast";
                    daily_messages := ["Awesome messages!"];
                    random_parameters := 42;
                    duration := "20 Seconds";
                    language := "English" |}))
        (events run)
  /\ result run = Return true.
Proof.
  intros run.
  pose proof (handler_batch_from_text Stub.extractMessages
                Stub.env_complete Stub.succeeding Stub.plain_memory
                (Some Stub.stale_state) (Some Sink))
    as (Hevery & _ & _ & _ & Hbuilt).
  assert (Hpresent : forall v,
             In v (guarded_values Stub.env_complete) ->
             exists s, v = Some s /\ s <> EmptyString).
  { intros v Hv. unfold guarded_values in Hv. in_cases Hv; subst v;
      (eexists; split; [reflexivity | discriminate]). }
  destruct (Hbuilt Sink 42 eq_refl Hpresent eq_refl eq_refl eq_refl eq_refl
              eq_refl) as [Hprompt Hgoes_on].
  split; [reflexivity |]. split; [reflexivity |].
  split; [exact Hevery |]. split; [exact Hprompt |].
  apply Hgoes_on. intros op _. destruct op; reflexivity.
Defined.

(** C5, as the claim states it, fails: the handler does not read the batch
    back from the session state.  Validation of the example message
    attaches its batch to the state; validation of a later message of the
    session overwrites it; the handler, run for the example message with
    that state, still builds its prompt from the two fragments of the
    example text, and does the same with no state at all. *)
Lemma handler_ignores_attached_batch :
  let first :=
    validate Stub.extractMessages Stub.example_memory
      (Some Stub.empty_state) in
  let second := validate Stub.extractMessages Stub.later_memory (snd first) in
  let run :=
    handler Stub.extractMessages Stub.env_complete Stub.succeeding
      Stub.example_memory (snd second) (Some Sink) in
  fst first = true
  /\ option_map State.daily_messages (snd first)
     = Some (Some ["eth denver is awesome"; "bufficast project is the best"])
  /\ fst second = true
  /\ option_map State.daily_messages (snd second) = Some (Some ["gm"])
  /\ map daily_messages
       (flat_map (fun ev => match ev with
                            | Step (OpStringifyPrompt prompt) => [prompt]
                            | _ => []
                            end) (events run))
     = [["eth denver is awesome"; "bufficast project is the best"]]
  /\ handler Stub.extractMessages Stub.env_complete Stub.succeeding
       Stub.example_memory None (Some Sink) = run.
Proof. vm_compute. repeat split. Qed.

(** C5 (amended). For every inbound text from which validation succeeds,
    validation attaches the extracted batch to the session state, leaving
    the rest of the state as it was; this is a call of its own, made
    before the handler.  The handler does not read the batch back: its
    run is the same whatever state it is given, and the batch of its
    prompt is re-extracted from the text, which gives the batch that
    validation attached. *)
Theorem validate_attaches_batch {R A : Type}
  (extractMessages : string -> option (list string)) (env : ProcessEnv)
  (w : Collaborators R A) (_memory : Memory)
  (_state state' : option State.t) :
  validate extractMessages _memory _state = (true, state') ->
  exists s batch,
    _state = Some s
    /\ extractMessages (text (content _memory)) = Some batch
    /\ state' = Some (State.set_daily_messages batch s)
    /\ option_map State.daily_messages state' = Some (Some batch)
    /\ option_map State.others state' = Some (State.others s)
    /\ (forall any_state _callback,
          handler extractMessages env w _memory any_state _callback
          = handler extractMessages env w _memory state' _callback)
    /\ (forall any_state _callback prompt,
          In (Step (OpStringifyPrompt prompt))
             (events (handler extractMessages env w _memory any_state
                        _callback)) ->
          daily_messages prompt = batch).
Proof.
  unfold validate. intros Hv.
  destruct (extractMessages (text (content _memory))) as [batch|] eqn:Hx;
    [| discriminate Hv].
  destruct _state as [s|]; [| discriminate Hv].
  injection Hv as <-. exists s, batch.
  repeat split.
  intros any_state _callback prompt Hin.
  rewrite (handler_prompt_batch _ _ _ _ _ _ _ Hin), Hx. reflexivity.
Qed.

(** The amended C5 on the first example of the action. *)
Lemma validate_attaches_batch_witness :
  let batch := ["eth denver is awesome"; "bufficast project is the best"] in
  let state' :=
    Some {| State.daily_messages := Some batch; State.others := [] |} in
  validate Stub.extractMessages Stub.example_memory (Some Stub.empty_state)
  = (true, state')
  /\ exists s batch,
       Some Stub.empty_state = Some s
       /\ Stub.extractMessages (text (content Stub.example_memory))
          = Some batch
       /\ state' = Some (State.set_daily_messages batch s)
       /\ option_map State.daily_messages state' = Some (Some batch)
       /\ option_map State.others state' = Some (State.others s)
       /\ (forall any_state _callback,
             handler Stub.extractMessages Stub.env_complete Stub.succeeding
               Stub.example_memory any_state _callback
             = handler Stub.extractMessages Stub.env_complete
                 Stub.succeeding Stub.example_memory state' _callback)
       /\ (forall any_state _callback prompt,
             In (Step (OpStringifyPrompt prompt))
                (events (handler Stub.extractMessages Stub.env_complete
                           Stub.succeeding Stub.example_memory any_state
                           _callback)) ->
             daily_messages prompt = batch).
Proof.
  intros batch state'.
  split; [reflexivity |].
  apply (validate_attaches_batch Stub.extractMessages Stub.env_complete
           Stub.succeeding Stub.example_memory (Some Stub.empty_state)
           state').
  reflexivity.
Defined.

(** ** Further properties of the action *)

(** *** Helper lemmas *)

Lemma falsy_spec (v : option string) :
  falsy v = true <-> v = None \/ v = Some EmptyString.
Proof.
  destruct v as [s|]; simpl.
  - rewrite String.eqb_eq. split.
    + intros ->. now right.
    + intros [H|H]; [discriminate H | now injection H].
  - split; [now left | reflexivity].
Qed.

Lemma unconfigured_spec (env : ProcessEnv) :
  configured env = false
  <-> exists v, In v (guarded_values env)
                /\ (v = None \/ v = Some EmptyString).
Proof.
  unfold configured, guarded_values.
  rewrite negb_false_iff, !orb_true_iff, !falsy_spec. split.
  - intros [[[[[H|H]|H]|H]|H]|H]; eexists; (split; [| exact H]); in_list.
  - intros (v & Hin & Hv). in_cases Hin; subst v; tauto.
Qed.

Lemma configured_spec (env : ProcessEnv) :
  configured env = true
  <-> forall v, In v (guarded_values env) ->
                exists s, v = Some s /\ s <> EmptyString.
Proof.
  split; [| apply present_configured].
  intros Hc v Hin.
  destruct (falsy v) eqn:Hf.
  - assert (Hu : configured env = false)
      by (apply unconfigured_spec; exists v; split;
          [exact Hin | now apply falsy_spec]).
    congruence.
  - destruct (narrow_guarded v Hf) as [Hv Hne]. eauto.
Qed.

Lemma NoDup_firstn {X : Type} (n : nat) (l : list X) :
  NoDup l -> NoDup (firstn n l).
Proof.
  intros Hl. revert n.
  induction Hl as [|x l Hx Hl IH]; intros [|n]; simpl; try constructor.
  - intros Hin. apply Hx. revert Hin. clear. revert n.
    induction l as [|y l IHl]; intros [|n]; simpl; try tauto.
    intros [H|H]; [now left | right; eauto].
  - apply IH.
Qed.

Lemma steps_in {R A : Type} (tr : list (event R A)) (op : operation R A) :
  In op (steps tr) <-> In (Step op) tr.
Proof.
  induction tr as [|ev tr IH]; [reflexivity |].
  destruct ev as [text | label error | op0]; cbn [steps In]; rewrite ?IH.
  - split; [tauto | intros [H|H]; [discriminate H | exact H]].
  - split; [tauto | intros [H|H]; [discriminate H | exact H]].
  - split; (intros [H|H]; [left; congruence | right; exact H]).
Qed.

(** *** Validation *)

(** X1. Validation resolves to [true] exactly when the extraction yields
    a batch and a state object is given; a batch without a state object
    is rejected.  A validation that resolves to [false] leaves the state
    as it was. *)
Theorem validate_accepts_iff
  (extractMessages : string -> option (list string)) (_memory : Memory)
  (_state : option State.t) :
  (fst (validate extractMessages _memory _state) = true
   <-> exists batch s,
         extractMessages (text (content _memory)) = Some batch
         /\ _state = Some s)
  /\ (fst (validate extractMessages _memory _state) = false <->
      snd (validate extractMessages _memory _state) = _state
      /\ (extractMessages (text (content _memory)) = None
          \/ _state = None)).
Proof.
  unfold validate.
  destruct (extractMessages (text (content _memory))) as [batch|];
    destruct _state as [s|]; cbn [fst snd].
  - split; split.
    + intros _. exists batch, s. split; reflexivity.
    + reflexivity.
    + discriminate.
    + intros [_ [H|H]]; discriminate H.
  - split; split; try discriminate; try tauto.
    intros (b & s & _ & H). discriminate H.
  - split; split; try discriminate; try tauto.
    intros (b & s0 & H & _). discriminate H.
  - split; split; try discriminate; try tauto.
    intros (b & s0 & H & _). discriminate H.
Qed.

(** X2. A validation that finds a batch overwrites whatever an earlier
    validation attached to the shared state: validating a message after
    another one gives the result, and the state, of validating it alone. *)
Theorem validate_last_write_wins
  (extractMessages : string -> option (list string))
  (earlier later : Memory) (_state : option State.t)
  (batch : list string) :
  extractMessages (text (content later)) = Some batch ->
  validate extractMessages later
    (snd (validate extractMessages earlier _state))
  = validate extractMessages later _state.
Proof.
  intros Hlater. unfold validate. rewrite Hlater.
  destruct (extractMessages (text (content earlier))) as [b1|];
    destruct _state as [s|]; reflexivity.
Qed.

(** X2 on the two example messages. *)
Lemma validate_last_write_wins_witness :
  Stub.extractMessages (text (content Stub.later_memory)) = Some ["gm"]
  /\ validate Stub.extractMessages Stub.later_memory
       (snd (validate Stub.extractMessages Stub.example_memory
               (Some Stub.empty_state)))
     = validate Stub.extractMessages Stub.later_memory
         (Some Stub.empty_state).
Proof.
  split; [reflexivity |].
  apply (validate_last_write_wins Stub.extractMessages Stub.example_memory
           Stub.later_memory (Some Stub.empty_state) ["gm"]).
  reflexivity.
Defined.

(** *** The handler: how a run ends *)



(** *** The handler: the order of a run *)

Lemma pipeline_order_NoDup : NoDup pipeline_order.
Proof.
  unfold pipeline_order.
  repeat (constructor; [cbn [In]; intuition discriminate |]).
  constructor.
Qed.

(** Finds the length of the prefix a run went through. *)
Ltac find_prefix fuel n :=
  lazymatch fuel with
  | O => fail "no prefix"
  | S ?fuel' =>
      first [exists n; repeat split; reflexivity | find_prefix fuel' (S n)]
  end.

(** X6. The operations of a run are an initial part of the fixed order of
    the pipeline: a run never skips an operation, never reorders two, and
    never attempts one twice (there is no retry). *)
Theorem operations_in_fixed_order {R A : Type}
  (extractMessages : string -> option (list string)) (env : ProcessEnv)
  (w : Collaborators R A) (_memory : Memory) (_state : option State.t)
  (_callback : option HandlerCallback) :
  let run := handler extractMessages env w _memory _state _callback in
  (exists n, map op_name (steps (events run)) = firstn n pipeline_order)
  /\ NoDup (map op_name (steps (events run))).
Proof.
  intros run.
  assert (Hprefix : exists n,
             map op_name (steps (events run)) = firstn n pipeline_order).
  { subst run. destruct _callback as [cb|]; [| exists 0; reflexivity].
    unfold_run. rewrite guard_configured.
    destruct (configured env); [| exists 0; reflexivity].
    all_completions; find_prefix 14 0. }
  split; [exact Hprefix |].
  destruct Hprefix as [n ->].
  apply NoDup_firstn, pipeline_order_NoDup.
Qed.


(** *** The handler: what flows from one operation to the next *)

(** Case analysis on a whole run of the handler, given that some event
    [Hin] occurs in it. *)
Ltac run_cases Hin :=
  revert Hin;
  match goal with
  | |- In _ (events (handler _ ?env _ _ _ ?cb)) -> _ =>
      destruct cb as [?|]; [| intros []];
      unfold_run; rewrite guard_configured;
      destruct (configured env) eqn:?;
      [| intros Hin; in_cases Hin; discriminate Hin];
      all_completions; intros Hin; in_cases Hin; try discriminate Hin;
      injection Hin as Hin
  end.

(** X11. Each service is constructed with the configured value meant for
    it: the blockchain service with the private key and the two contract
    addresses (and the flag [false]), the audio service with the
    ElevenLabs key, the IPFS service with the Pinata token and the client
    of the language model with the Anthropic key. *)
Theorem services_receive_configured_values {R A : Type}
  (extractMessages : string -> option (list string)) (env : ProcessEnv)
  (w : Collaborators R A) (_memory : Memory) (_state : option State.t)
  (_callback : option HandlerCallback) (op : operation R A) :
  let run := handler extractMessages env w _memory _state _callback in
  In (Step op) (events run) ->
  match op with
  | OpNewBlockchainService privateKey contractAddress contractAddressFlow
      flag =>
      EVM_PRIVATE_KEY env = Some privateKey
      /\ CONTRACT_ADDRESS env = Some contractAddress
      /\ CONTRACT_ADDRESS_FLOW env = Some contractAddressFlow
      /\ flag = false
  | OpNewAudioService xiApiKey => ELEVENLABS_XI_API_KEY env = Some xiApiKey
  | OpNewIPFSService pinataJwt => PINATA_JWT env = Some pinataJwt
  | OpNewAnthropic apiKey => ANTHROPIC_API_KEY env = Some apiKey
  | _ => True
  end.
Proof.
  intros run Hin. subst run.
  assert (Hnarrow : configured env = true ->
            forall v, In v (guarded_values env) -> v = Some (narrow v)).
  { intros Hc v Hv. destruct (proj1 (configured_spec env) Hc v Hv)
      as (s & -> & _). reflexivity. }
  run_cases Hin; subst op; try exact I;
    repeat split;
    (apply Hnarrow; [reflexivity | unfold guarded_values; in_list]).
Qed.

(** X11 on the run in which every test double succeeds. *)
Lemma services_receive_configured_values_witness :
  let run :=
    handler Stub.extractMessages Stub.env_complete Stub.succeeding
      Stub.example_memory (Some Stub.empty_state) (Some Sink) in
  In (Step (OpNewBlockchainService "0xkey" "0xc0ffee" "0xf10" false))
     (events run)
  /\ EVM_PRIVATE_KEY Stub.env_complete = Some "0xkey"
  /\ CONTRACT_ADDRESS Stub.env_complete = Some "0xc0ffee"
  /\ CONTRACT_ADDRESS_FLOW Stub.env_complete = Some "0xf10"
  /\ false = false.
Proof.
  split; [vm_compute; tauto |].
  apply (services_receive_configured_values Stub.extractMessages
           Stub.env_complete Stub.succeeding Stub.example_memory
           (Some Stub.empty_state) (Some Sink)
           (OpNewBlockchainService "0xkey" "0xc0ffee" "0xf10" false)).
  vm_compute; tauto.
Defined.

(** X12. Every request to the language model is made with the model
    [claude-3-haiku-20240307], at most 1024 tokens and one user message,
    whose content is the serialisation of a prompt that carries the
    random parameters the oracle returned in this run. *)
Theorem model_request_shape {R A : Type}
  (extractMessages : string -> option (list string)) (env : ProcessEnv)
  (w : Collaborators R A) (_memory : Memory) (_state : option State.t)
  (_callback : option HandlerCallback)
  (model : string) (max_tokens : Z) (role content : string) :
  let run := handler extractMessages env w _memory _state _callback in
  In (Step (OpMessagesCreate model max_tokens role content)) (events run) ->
  model = "claude-3-haiku-20240307"
  /\ max_tokens = 1024%Z
  /\ role = "user"
  /\ exists randomParams prompt,
       requestRandomParameters w = Return randomParams
       /\ random_parameters prompt = randomParams
       /\ In (Step (OpStringifyPrompt prompt)) (events run)
       /\ JSON_stringify_prompt w prompt = Return content.
Proof.
  intros run Hin. subst run.
  run_cases Hin; subst;
    (split; [reflexivity |]); (split; [reflexivity |]);
    (split; [reflexivity |]);
    match goal with
    | E1 : requestRandomParameters _ = Return ?rp,
      E2 : JSON_stringify_prompt _ ?p = Return _ |- _ =>
        exists rp, p
    end;
    (split; [reflexivity |]); (split; [reflexivity |]);
    (split; [in_list | assumption]).
Qed.

(** X12 on the run in which every test double succeeds. *)
Lemma model_request_shape_witness :
  let run :=
    handler Stub.extractMessages Stub.env_complete Stub.succeeding
      Stub.plain_memory None (Some Sink) in
  let prompt :=
    {| instruction := "Generate a podcast script based on the day's messages. Create natural speech without formatting.";
       topic := "Ethereum Denver 2025 daily podcast";
       daily_messages := ["Awesome messages!"];
       random_parameters := 42;
       duration := "20 Seconds";
       language := "English" |} in
  In (Step (OpMessagesCreate "claude-3-haiku-20240307" 1024 "user"
              (Stub.json_prompt prompt))) (events run)
  /\ exists randomParams prompt',
       requestRandomParameters Stub.succeeding = Return randomParams
       /\ random_parameters prompt' = randomParams
       /\ In (Step (OpStringifyPrompt prompt')) (events run)
       /\ JSON_stringify_prompt Stub.succeeding prompt'
          = Return (Stub.json_prompt prompt).
Proof.
  intros run prompt.
  split; [vm_compute; tauto |].
  apply (model_request_shape Stub.extractMessages Stub.env_complete
           Stub.succeeding Stub.plain_memory None (Some Sink)
           "claude-3-haiku-20240307" 1024 "user" (Stub.json_prompt prompt)).
  vm_compute; tauto.
Defined.

(** X10. The audio that is uploaded is the one speech synthesis returned
    for the script of the language model's response. *)
Theorem uploaded_audio_is_synthesised_script {R A : Type}
  (extractMessages : string -> option (list string)) (env : ProcessEnv)
  (w : Collaborators R A) (_memory : Memory) (_state : option State.t)
  (_callback : option HandlerCallback) (audioPath : A) :
  let run := handler extractMessages env w _memory _state _callback in
  In (Step (OpUploadAudioFile audioPath)) (events run) ->
  exists payload response,
    messages_create w "claude-3-haiku-20240307" 1024 "user" payload
    = Return response
    /\ In (Step (OpGenerateAudio
                   (String.concat newline (text_segments response))))
          (events run)
    /\ generateAudio w (String.concat newline (text_segments response))
       = Return audioPath.
Proof.
  intros run Hin. subst run.
  run_cases Hin; subst;
    match goal with
    | E : messages_create _ _ _ _ ?payload = Return ?response |- _ =>
        exists payload, response
    end;
    rewrite <- join_defined, <- filter_text_blocks;
    (split; [assumption |]); (split; [in_list | assumption]).
Qed.

(** X10 on the run in which every test double succeeds. *)
Lemma uploaded_audio_is_synthesised_script_witness :
  let run :=
    handler Stub.extractMessages Stub.env_complete Stub.succeeding
      Stub.example_memory (Some Stub.empty_state) (Some Sink) in
  In (Step (OpUploadAudioFile "podcast.mp3")) (events run)
  /\ exists payload response,
       messages_create Stub.succeeding "claude-3-haiku-20240307" 1024
         "user" payload = Return response
       /\ In (Step (OpGenerateAudio
                      (String.concat newline (text_segments response))))
             (events run)
       /\ generateAudio Stub.succeeding
            (String.concat newline (text_segments response))
          = Return "podcast.mp3".
Proof.
  split; [vm_compute; tauto |].
  apply (uploaded_audio_is_synthesised_script Stub.extractMessages
           Stub.env_complete Stub.succeeding Stub.example_memory
           (Some Stub.empty_state) (Some Sink) "podcast.mp3").
  vm_compute; tauto.
Defined.

(** X8. The URI written into the token is the gateway URL of the content
    identifier that the upload of the metadata returned in this run. *)
Theorem token_uri_points_to_uploaded_metadata {R A : Type}
  (extractMessages : string -> option (list string)) (env : ProcessEnv)
  (w : Collaborators R A) (_memory : Memory) (_state : option State.t)
  (_callback : option HandlerCallback) (uri : string) :
  let run := handler extractMessages env w _memory _state _callback in
  In (Step (OpUpdateTokenURI uri)) (events run) ->
  exists metadata metadataHash,
    In (Step (OpUploadMetadata metadata)) (events run)
    /\ uploadMetadata w metadata = Return metadataHash
    /\ uri = "https://ipfs.io/ipfs/" ++ metadataHash.
Proof.
  intros run Hin. subst run.
  run_cases Hin; subst;
    match goal with
    | E : uploadMetadata _ ?metadata = Return ?hash |- _ =>
        exists metadata, hash
    end;
    (split; [in_list |]); (split; [assumption | reflexivity]).
Qed.

(** X8 on the run in which every test double succeeds. *)
Lemma token_uri_points_to_uploaded_metadata_witness :
  let run :=
    handler Stub.extractMessages Stub.env_complete Stub.succeeding
      Stub.example_memory (Some Stub.empty_state) (Some Sink) in
  In (Step (OpUpdateTokenURI "https://ipfs.io/ipfs/QmMeta")) (events run)
  /\ exists metadata metadataHash,
       In (Step (OpUploadMetadata metadata)) (events run)
       /\ uploadMetadata Stub.succeeding metadata = Return metadataHash
       /\ "https://ipfs.io/ipfs/QmMeta"
          = "https://ipfs.io/ipfs/" ++ metadataHash.
Proof.
  split; [vm_compute; tauto |].
  apply (token_uri_points_to_uploaded_metadata Stub.extractMessages
           Stub.env_complete Stub.succeeding Stub.example_memory
           (Some Stub.empty_state) (Some Sink)
           "https://ipfs.io/ipfs/QmMeta").
  vm_compute; tauto.
Defined.

(** X9. The registration with the IP protocol is attempted only after the
    token URI was updated successfully, and with the two content
    identifiers of this run: the one returned by the upload of the audio
    (the one the metadata links to) and the one returned by the upload of
    the metadata (the one the token URI points to). *)
Theorem registration_uses_uploaded_identifiers {R A : Type}
  (extractMessages : string -> option (list string)) (env : ProcessEnv)
  (w : Collaborators R A) (_memory : Memory) (_state : option State.t)
  (_callback : option HandlerCallback) (audioHash metadataHash : string) :
  let run := handler extractMessages env w _memory _state _callback in
  In (Step (OpCallStoryProtocol audioHash metadataHash)) (events run) ->
  exists audioPath metadata,
    In (Step (OpUploadAudioFile audioPath)) (events run)
    /\ uploadAudioFile w audioPath = Return audioHash
    /\ In (Step (OpUploadMetadata metadata)) (events run)
    /\ uploadMetadata w metadata = Return metadataHash
    /\ external_url metadata = "https://ipfs.io/ipfs/" ++ audioHash
    /\ In (Step (OpUpdateTokenURI ("https://ipfs.io/ipfs/" ++ metadataHash)))
          (events run)
    /\ updateTokenURI w ("https://ipfs.io/ipfs/" ++ metadataHash)
       = Return tt.
Proof.
  intros run Hin. subst run.
  run_cases Hin; subst;
    match goal with
    | E1 : uploadAudioFile _ ?path = Return _,
      E2 : uploadMetadata _ ?metadata = Return _,
      E3 : updateTokenURI _ _ = Return ?u |- _ =>
        exists path, metadata; destruct u
    end;
    (split; [in_list |]); (split; [assumption |]);
    (split; [in_list |]); (split; [assumption |]);
    (split; [reflexivity |]); (split; [in_list | assumption]).
Qed.

(** X9 on the run in which every test double succeeds. *)
Lemma registration_uses_uploaded_identifiers_witness :
  let run :=
    handler Stub.extractMessages Stub.env_complete Stub.succeeding
      Stub.example_memory (Some Stub.empty_state) (Some Sink) in
  In (Step (OpCallStoryProtocol "QmAudio" "QmMeta")) (events run)
  /\ exists audioPath metadata,
       In (Step (OpUploadAudioFile audioPath)) (events run)
       /\ uploadAudioFile Stub.succeeding audioPath = Return "QmAudio"
       /\ In (Step (OpUploadMetadata metadata)) (events run)
       /\ uploadMetadata Stub.succeeding metadata = Return "QmMeta"
       /\ external_url metadata = "https://ipfs.io/ipfs/" ++ "QmAudio"
       /\ In (Step (OpUpdateTokenURI ("https://ipfs.io/ipfs/" ++ "QmMeta")))
             (events run)
       /\ updateTokenURI Stub.succeeding ("https://ipfs.io/ipfs/" ++ "QmMeta")
          = Return tt.
Proof.
  split; [vm_compute; tauto |].
  apply (registration_uses_uploaded_identifiers Stub.extractMessages
           Stub.env_complete Stub.succeeding Stub.example_memory
           (Some Stub.empty_state) (Some Sink) "QmAudio" "QmMeta").
  vm_compute; tauto.
Defined.



(** *** The helper [generatePodcastContent] *)

(** X14. [generatePodcastContent] notifies nobody and logs nothing, and
    an exception is passed on as it was raised: when the promise is
    rejected, the last thing attempted is the operation that raised this
    very exception, and everything before it had succeeded. *)
Theorem generatePodcastContent_propagates {R A : Type}
  (w : Collaborators R A) (messages : list string) (randomParams : R)
  (apiKey : string) :
  let run := generatePodcastContent w messages randomParams apiKey in
  (forall ev, In ev (events run) -> exists op, ev = Step op)
  /\ (forall e, result run = Throw e ->
        exists pre op,
          events run = (pre ++ [Step op])%list
          /\ raised w op = Some e
          /\ forall op', In (Step op') pre -> raised w op' = None).
Proof.
  intros run. subst run. unfold_run. all_completions; split;
    try (intros ev Hin; in_cases Hin; subst ev; eexists; reflexivity);
    intros err He; try discriminate He; injection He as He; subst err.
  - eexists [_; _], _. split; [reflexivity |].
    split; [exact (f_equal error_of E1) |].
    intros op' Hin. in_cases Hin; injection Hin as Hin; subst op'.
    + exact (f_equal error_of E).
    + exact (f_equal error_of E0).
  - eexists [_], _. split; [reflexivity |].
    split; [exact (f_equal error_of E0) |].
    intros op' Hin. in_cases Hin; injection Hin as Hin; subst op'.
    exact (f_equal error_of E).
  - eexists [], _. split; [reflexivity |].
    split; [exact (f_equal error_of E) |].
    intros op' [].
Qed.

(** X14 on a language model that is overloaded: the rejection carries the
    error of [messages.create], the third and last operation attempted. *)
Lemma generatePodcastContent_propagates_witness :
  let run := generatePodcastContent Stub.model_down ["gm"] 42 "sk-ant-test" in
  result run = Throw (Error "529 overloaded_error")
  /\ exists pre op,
       events run = (pre ++ [Step op])%list
       /\ raised Stub.model_down op = Some (Error "529 overloaded_error")
       /\ forall op', In (Step op') pre -> raised Stub.model_down op' = None.
Proof.
  split; [reflexivity |].
  apply (proj2 (generatePodcastContent_propagates Stub.model_down ["gm"] 42
                  "sk-ant-test")).
  reflexivity.
Defined.

(** *** The handler with a callback that may throw *)

(** With a callback that always returns, the handler is the one of the
    sink model. *)
Lemma fallible_handler_quiet {R A : Type}
  (extractMessages : string -> option (list string)) (env : ProcessEnv)
  (w : Collaborators R A) (_memory : Memory) (_state : option State.t)
  (_callback : option HandlerCallback) :
  Fallible.handler extractMessages env w _memory _state
    (option_map (fun _ _ => Return tt) _callback)
  = handler extractMessages env w _memory _state _callback.
Proof. destruct _callback as [[]|]; reflexivity. Qed.

Ltac unfold_fallible :=
  unfold Fallible.handler, Fallible.pipeline, Fallible.on_error,
    Fallible.callback, generatePodcastContent, elizaLogger_error,
    try_catch, bind, step, emit, ret, throw, events, result in *.

(** X3. When the promise of the handler is rejected, and with what: with
    "Callback is required" when no callback is given; with what the
    callback throws on the warning, which is emitted outside the [try]
    block, when a value is missing; and with what the callback throws on
    the failure notice, inside the [catch] clause, when that notice is
    attempted.  In no other case: an exception of an operation, or of the
    callback on a message of the [try] block, is caught. *)
Theorem handler_rejection_cases {R A : Type}
  (extractMessages : string -> option (list string)) (env : ProcessEnv)
  (w : Collaborators R A) (_memory : Memory) (_state : option State.t)
  (_callback : option Fallible.Callback) (e : exn) :
  let run :=
    Fallible.handler extractMessages env w _memory _state _callback in
  result run = Throw e
  <-> (_callback = None /\ e = Error "Callback is required")
      \/ (exists cb, _callback = Some cb
                     /\ configured env = false
                     /\ cb msg_missing_env = Throw e)
      \/ (exists cb, _callback = Some cb
                     /\ configured env = true
                     /\ In (Notify msg_failure) (events run)
                     /\ cb msg_failure = Throw e).
Proof.
  intros run. subst run. split.
  - destruct _callback as [cb|].
    + intros He. right. revert He.
      unfold_fallible. rewrite guard_configured.
      destruct (configured env).
      * all_completions; intros He; try discriminate He;
          injection He as He; subst e;
          right; exists cb; (split; [reflexivity |]);
          (split; [reflexivity |]); (split; [in_list | assumption]).
      * all_completions; intros He; try discriminate He;
          injection He as He; subst e;
          left; exists cb; repeat split; assumption.
    + intros He. left. split; [reflexivity |].
      cbn in He. now injection He.
  - intros [[-> ->] | [(cb & -> & Hc & Hcb) | (cb & -> & Hc & Hin & Hcb)]].
    + reflexivity.
    + unfold_fallible. rewrite guard_configured, Hc, Hcb. reflexivity.
    + revert Hin Hcb.
      unfold_fallible. rewrite guard_configured, Hc.
      all_completions; intros Hin Hcb; try discriminate Hcb;
        try (injection Hcb as Hcb; subst e; reflexivity);
        in_cases Hin; discriminate Hin.
Qed.

(** X3 on a run in which speech synthesis fails and the callback throws
    on the failure notice: the promise is rejected with the exception of
    the callback. *)
Lemma handler_rejection_cases_witness :
  let run :=
    Fallible.handler Stub.extractMessages Stub.env_complete
      Stub.speech_down Stub.example_memory (Some Stub.empty_state)
      (Some Stub.closed_on_failure) in
  In (Notify msg_failure) (events run)
  /\ Stub.closed_on_failure msg_failure = Throw (Error "socket closed")
  /\ result run = Throw (Error "socket closed").
Proof.
  intros run.
  assert (Hin : In (Notify msg_failure) (events run))
    by (vm_compute; tauto).
  split; [exact Hin |]. split; [reflexivity |].
  apply (proj2 (handler_rejection_cases Stub.extractMessages
                  Stub.env_complete Stub.speech_down Stub.example_memory
                  (Some Stub.empty_state) (Some Stub.closed_on_failure)
                  (Error "socket closed"))).
  right. right. exists Stub.closed_on_failure.
  repeat split; [exact Hin].
Defined.

(** Finds, among the completions gathered by [next_completion], the
    operation of the run that raised. *)
Ltac raised_operation :=
  match goal with
  | E : _ = Throw ?e |- _ =>
      match goal with
      | |- context [Step ?o] =>
          solve [exists o, e; split;
                 [in_list; fail | exact (f_equal error_of E)]]
      end
  end.

(** Finds the text of the [try] block on which the callback threw. *)
Ltac thrown_notification :=
  match goal with
  | E : ?cb ?text = Throw ?e |- _ =>
      solve [exists cb, text, e; split; [reflexivity |]; split;
             [in_list; fail |];
             split; [split; discriminate | exact E]]
  end.

(** X15. The failure notice is attempted exactly when the [try] block was
    left by an exception: an operation of the run raised, or the callback
    threw on one of the messages of the [try] block. *)
Theorem failure_notice_iff_try_left {R A : Type}
  (extractMessages : string -> option (list string)) (env : ProcessEnv)
  (w : Collaborators R A) (_memory : Memory) (_state : option State.t)
  (_callback : option Fallible.Callback) :
  let run :=
    Fallible.handler extractMessages env w _memory _state _callback in
  In (Notify msg_failure) (events run)
  <-> (exists op e, In (Step op) (events run) /\ raised w op = Some e)
      \/ (exists cb text e,
            _callback = Some cb
            /\ In (Notify text) (events run)
            /\ Fallible.inside_try text
            /\ cb text = Throw e).
Proof.
  intros run. subst run. unfold Fallible.inside_try.
  destruct _callback as [cb|].
  - unfold_fallible. rewrite guard_configured.
    destruct (configured env).
    + all_completions; split;
        try (intros _; in_list; fail);
        try (intros _; first [left; raised_operation
                             | right; thrown_notification]).
      all: try (intros Hin; in_cases Hin; discriminate Hin).
      all: intros [(op & e' & Hin & Hr) | (cb' & text & e' & Hcb & Hin & [Hw Hf] & Hthrow)].
      all: try (injection Hcb as Hcb; subst cb').
      all: in_cases Hin; try discriminate Hin; injection Hin as Hin.
      all: try (subst text; congruence).
      all: subst op; cbn [raised] in Hr; exfalso;
        match goal with
        | E : _ = Return _ |- _ =>
            generalize (eq_trans (eq_sym Hr) (f_equal error_of E));
            discriminate
        end.
    + all_completions; split;
        try (intros Hin; in_cases Hin; discriminate Hin);
        intros [(op & e' & Hin & Hr) | (cb' & text & e' & Hcb & Hin & [Hw Hf] & Hthrow)];
        in_cases Hin; try discriminate Hin;
        injection Hin as Hin; subst text; congruence.
  - split; [intros [] |].
    intros [(op & e' & [] & _) | (cb' & text & e' & Hcb & _)].
    discriminate Hcb.
Qed.

(** X15 on a run in which every operation succeeds and the callback
    throws on the speech message: the failure notice is attempted. *)
Lemma failure_notice_iff_try_left_witness :
  let run :=
    Fallible.handler Stub.extractMessages Stub.env_complete
      Stub.succeeding Stub.example_memory (Some Stub.empty_state)
      (Some Stub.closed_on_speech) in
  In (Notify msg_speech) (events run)
  /\ Fallible.inside_try msg_speech
  /\ Stub.closed_on_speech msg_speech = Throw (Error "socket closed")
  /\ (forall op, In (Step op) (events run) -> raised Stub.succeeding op = None)
  /\ In (Notify msg_failure) (events run)
  /\ result run = Return false.
Proof.
  intros run.
  assert (Hin : In (Notify msg_speech) (events run))
    by (vm_compute; tauto).
  assert (Htry : Fallible.inside_try msg_speech)
    by (split; discriminate).
  split; [exact Hin |]. split; [exact Htry |]. split; [reflexivity |].
  split; [intros op _; destruct op; reflexivity |].
  split; [| reflexivity].
  apply (proj2 (failure_notice_iff_try_left Stub.extractMessages
                  Stub.env_complete Stub.succeeding Stub.example_memory
                  (Some Stub.empty_state) (Some Stub.closed_on_speech))).
  right. exists Stub.closed_on_speech, msg_speech, (Error "socket closed").
  repeat split; try exact Hin; apply Htry.
Defined.
